(** * AI Badgr chat-model adapter: model and verified properties

    Shallow embedding of
      - libs/providers/langchain-aibadgr/src/profiles.ts
      - libs/langchain-community/src/chat_models/aibadgr.ts
    JavaScript objects are finite maps from property names to values;
    the object literal [{...a, k: v}] is an insertion into [a], the
    statement [delete o.k] a deletion in the object [o] refers to. *)

From Stdlib Require Import ZArith QArith String.
From stdpp Require Import base option gmap strings fin_maps.

Local Open Scope string_scope.

(** ** JavaScript values *)

(** Numbers are carried as rationals (every finite double is one); the
    adapter never computes with them. *)
#[local] Unset Elimination Schemes.
Inductive value : Type :=
  | VUndefined
  | VNull
  | VBool (b : bool)
  | VNum (q : Q)
  | VStr (s : string)
  | VArr (l : list value)
  | VObj (m : gmap string value).
#[local] Set Elimination Schemes.

(** An object: its own enumerable properties. *)
Abbreviation obj := (gmap string value).

(** A reference to an object held in the store. *)
Definition loc := positive.

Definition VInt (z : Z) : value := VNum (inject_Z z).

(** ToBoolean: [undefined], [null], [false], [0] and [""] are falsy. *)
Definition truthy (v : value) : bool :=
  match v with
  | VUndefined | VNull => false
  | VBool b => b
  | VNum q => negb (Z.eqb (Qnum q) 0)
  | VStr s => negb (String.eqb s "")
  | VArr _ | VObj _ => true
  end.

(** The one-character string holding a double quote. *)
Definition dquote : string := String (Ascii.ascii_of_nat 34) EmptyString.

(** [a || b]: [a] when it is truthy, [b] otherwise. *)
Definition js_or (a b : value) : value := if truthy a then a else b.

(** [o?.k]: [undefined] when [o] is undefined or has no property [k]. *)
Definition opt_get (o : option obj) (k : string) : value :=
  match o with
  | Some m => default VUndefined (m !! k)
  | None => VUndefined
  end.

(** [{...o}] for an optional [o]: spreading [undefined] adds nothing. *)
Definition spread (o : option obj) : obj := default ∅ o.

(** ** profiles.ts *)

Module Profiles.

Definition BASE_PROFILE : obj :=
  <["structuredOutput" := VBool false]>
  (<["toolCalling" := VBool true]>
  (<["videoOutputs" := VBool false]>
  (<["audioOutputs" := VBool false]>
  (<["imageOutputs" := VBool false]>
  (<["reasoningOutput" := VBool false]>
  (<["videoInputs" := VBool false]>
  (<["pdfInputs" := VBool false]>
  (<["audioInputs" := VBool false]>
  (<["imageInputs" := VBool false]> ∅))))))))).

Definition createProfile (maxInputTokens maxOutputTokens : Z) : obj :=
  <["maxOutputTokens" := VInt maxOutputTokens]>
  (<["maxInputTokens" := VInt maxInputTokens]> BASE_PROFILE).

Definition PROFILES : gmap string obj :=
  <["llama3-8b-instruct" := createProfile 32768 16384]>
  (<["mistral-7b" := createProfile 16384 8192]>
  (<["phi-3-mini" := createProfile 8192 4096]>
  (<["premium" := createProfile 32768 16384]>
  (<["normal" := createProfile 16384 8192]>
  (<["basic" := createProfile 8192 4096]> ∅))))).

End Profiles.


(** ** chat_models/aibadgr.ts *)

Module ChatAIBadgr.

Definition lc_name : string := "ChatAIBadgr".

Definition _llmType : string := "aibadgr".

Definition lc_secrets : obj :=
  <["apiKey" := VStr "AIBADGR_API_KEY"]>
  (<["aibadgrApiKey" := VStr "AIBADGR_API_KEY"]> ∅).

Definition lc_serializable : bool := true.

(** The message of the [Error] thrown by the constructor. *)
Definition key_not_found : string :=
  "AI Badgr API key not found. Please set the AIBADGR_API_KEY environment variable or provide the key into "
  ++ dquote ++ "aibadgrApiKey" ++ dquote.

Section constructor.

(** [getEnvironmentVariable] of @langchain/core/utils/env: the value of
    the named variable of the process environment, if any. *)
Variable getEnvironmentVariable : string -> option string.

Definition env_value (name : string) : value :=
  match getEnvironmentVariable name with
  | Some s => VStr s
  | None => VUndefined
  end.

(** The key the constructor resolves before anything else. *)
Definition aibadgrApiKey (fields : option obj) : value :=
  js_or
    (js_or (opt_get fields "apiKey") (opt_get fields "aibadgrApiKey"))
    (env_value "AIBADGR_API_KEY").

(** The constructor, up to and including the call of the base-class
    constructor: [inl msg] when it throws [Error(msg)], [inr args] with
    the object it hands to [super(...)] otherwise. *)
Definition constructor (fields : option obj) : string + obj :=
  let key := aibadgrApiKey fields in
  if negb (truthy key) then inl key_not_found
  else inr
    (<["configuration" :=
         VObj (<["baseURL" := VStr "https://aibadgr.com/api/v1"]> ∅)]>
    (<["apiKey" := key]>
    (<["model" := js_or (opt_get fields "model") (VStr "gpt-4")]>
    (spread fields)))).

End constructor.

(** [typeof v] *)
Definition typeof (v : value) : string :=
  match v with
  | VUndefined => "undefined"
  | VBool _ => "boolean"
  | VNum _ => "number"
  | VStr _ => "string"
  | VNull | VArr _ | VObj _ => "object"
  end.

(** [v != null]: only [null] and [undefined] are loosely equal to [null]. *)
Definition not_nullish (v : value) : bool :=
  match v with
  | VUndefined | VNull => false
  | _ => true
  end.

(** [delete v.k] on the value [v]. An array carries no named property in
    this model and a primitive has none of its own. *)
Definition delete_in (k : string) (v : value) : value :=
  match v with
  | VObj m => VObj (delete k m)
  | _ => v
  end.

Section methods.

(** The instance as the base class sees it, and the two base-class
    methods the adapter overrides and calls through [super]. *)
Variable Client : Type.
Variable super_getLsParams : Client -> value -> obj.
Variable super_toJSON : Client -> obj.

Definition getLsParams (this : Client) (options : value) : obj :=
  let params := super_getLsParams this options in
  <["ls_provider" := VStr "aibadgr"]> params.

Definition toJSON (this : Client) : obj :=
  let result := super_toJSON this in
  let kwargs := default VUndefined (result !! "kwargs") in
  if bool_decide (is_Some (result !! "kwargs"))
     && String.eqb (typeof kwargs) "object"
     && not_nullish kwargs
  then
    <["kwargs" :=
        delete_in "configuration" (delete_in "openai_api_key" kwargs)]>
      result
  else result.

End methods.

(** *** Requests are shared objects

    [completionWithRetry] receives a reference to the caller's request
    object. The store maps references to the objects they denote. *)

(** [delete request.k] *)
Definition delete_property (request : loc) (k : string)
    (σ : gmap loc obj) : gmap loc obj :=
  alter (delete k) request σ.

(** The four [delete] statements at the head of [completionWithRetry]. *)
Definition delete_unsupported (request : loc)
    (σ : gmap loc obj) : gmap loc obj :=
  let σ := delete_property request "frequency_penalty" σ in
  let σ := delete_property request "presence_penalty" σ in
  let σ := delete_property request "logit_bias" σ in
  delete_property request "functions" σ.

Section completion.

(** What the base class's [completionWithRetry] settles to (a
    completion, a stream of chunks or an upstream error), and that
    method itself: it is handed the request reference and the options,
    and runs on the store as the adapter left it. *)
Variable Outcome : Type.
Variable super_completionWithRetry :
  loc -> value -> gmap loc obj -> Outcome * gmap loc obj.

Definition completionWithRetry (request : loc) (options : value)
    (σ : gmap loc obj) : Outcome * gmap loc obj :=
  super_completionWithRetry request options (delete_unsupported request σ).

End completion.

End ChatAIBadgr.

(** ** Profile of a model name *)

(** Modelled from the spec: the profile getter of the provider package
    (its chat_models.ts is not part of the sources at hand). The spec
    gives [lookup(modelName) -> Profile] as a direct key match in the
    table, an unknown key yielding the empty profile. *)
Definition lookup (modelName : string) : obj :=
  default ∅ (Profiles.PROFILES !! modelName).

(** ** Vocabulary of the statements *)

(** The four request fields the endpoint does not support. *)
Definition unsupported : list string :=
  ["frequency_penalty"; "presence_penalty"; "logit_bias"; "functions"].

(** The six keys of the profile table. *)
Definition known_models : list string :=
  ["basic"; "normal"; "premium";
   "phi-3-mini"; "mistral-7b"; "llama3-8b-instruct"].

(** The capability flags of a profile other than [toolCalling]. *)
Definition other_flags : list string :=
  ["imageInputs"; "audioInputs"; "pdfInputs"; "videoInputs";
   "reasoningOutput"; "imageOutputs"; "audioOutputs"; "videoOutputs";
   "structuredOutput"].

(** The table has an entry for [name], with these two limits. *)
Definition has_limits (name : string) (maxIn maxOut : Z) : Prop :=
  ∃ p, Profiles.PROFILES !! name = Some p ∧
       p !! "maxInputTokens" = Some (VInt maxIn) ∧
       p !! "maxOutputTokens" = Some (VInt maxOut).

(** A field declared [k?: string]: absent, [undefined] or a string. *)
Definition optional_string (v : value) : Prop :=
  v = VUndefined ∨ ∃ s, v = VStr s.

(** The string a source supplies, if it supplies a non-empty one. *)
Definition non_empty (v : value) : option string :=
  match v with
  | VStr s => if String.eqb s "" then None else Some s
  | _ => None
  end.

(** The first non-empty value of a list of sources in priority order. *)
Fixpoint first_non_empty (sources : list value) : option string :=
  match sources with
  | [] => None
  | v :: rest =>
      match non_empty v with
      | Some s => Some s
      | None => first_non_empty rest
      end
  end.

(** The three sources of the key, in the order the constructor reads
    them. *)
Definition key_sources (env : string → option string)
    (fields : option obj) : list value :=
  [opt_get fields "apiKey"; opt_get fields "aibadgrApiKey";
   ChatAIBadgr.env_value env "AIBADGR_API_KEY"].

(** [contains needle hay]: [needle] occurs in [hay]. *)
Fixpoint contains (needle hay : string) : bool :=
  String.prefix needle hay ||
  match hay with
  | EmptyString => false
  | String _ rest => contains needle rest
  end.

(** A property of the [kwargs] block of a serialized record. *)
Definition kwargs_get (record : obj) (k : string) : option value :=
  match record !! "kwargs" with
  | Some (VObj kwargs) => kwargs !! k
  | _ => None
  end.

(** The request object with the four unsupported fields removed. *)
Definition without_unsupported (request : obj) : obj :=
  delete "functions"
    (delete "logit_bias"
       (delete "presence_penalty"
          (delete "frequency_penalty" request))).

(** ** Sample inputs *)

(** A streaming request that carries the four unsupported fields next
    to supported ones. *)
Definition sample_request : obj :=
  <["model" := VStr "premium"]>
  (<["messages" :=
       VArr [VObj (<["role" := VStr "user"]> {["content" := VStr "Hi"]})]]>
  (<["temperature" := VNum (7 # 10)]>
  (<["stream" := VBool true]>
  (<["tools" := VArr []]>
  (<["frequency_penalty" := VNum (1 # 2)]>
  (<["presence_penalty" := VInt 0]>
  (<["logit_bias" := VObj ∅]>
  (<["functions" := VArr []]> ∅)))))))).

(** What the base class serializes for a client built from
    [{apiKey: "k", model: "premium"}]: the key masked as a secret under
    its alias, and the endpoint block. *)
Definition sample_serialized : obj :=
  <["lc" := VInt 1]>
  (<["type" := VStr "constructor"]>
  (<["id" := VArr [VStr "langchain"; VStr "chat_models"; VStr "aibadgr";
                   VStr "ChatAIBadgr"]]>
  {["kwargs" := VObj
     (<["model" := VStr "premium"]>
     (<["openai_api_key" := VObj
          (<["lc" := VInt 1]>
          (<["type" := VStr "secret"]>
          {["id" := VArr [VStr "AIBADGR_API_KEY"]]}))]>
     {["configuration" := VObj
          {["baseURL" := VStr "https://aibadgr.com/api/v1"]}]}))]})).

(** A wrapped client that settles to [undefined] and leaves every
    object as it finds it. *)
Definition inert_client (request : loc) (options : value)
    (σ : gmap loc obj) : value * gmap loc obj :=
  (VUndefined, σ).

(** ** examples/src/llms/aibadgr.ts *)

Module Example.

(** [process.env.NAME]: the variable's value, [undefined] when unset. *)
Definition process_env (env : string → option string)
    (name : string) : value :=
  match env name with
  | Some s => VStr s
  | None => VUndefined
  end.

(** The options object [run] builds for the OpenAI client. *)
Definition run_options (env : string → option string) : obj :=
  <["configuration" :=
      VObj (<["baseURL" :=
                js_or (process_env env "AIBADGR_BASE_URL")
                      (VStr "https://aibadgr.com/api/v1")]> ∅)]>
  (<["temperature" := VNum (7 # 10)]>
  (<["model" := VStr "premium"]>
  (<["apiKey" := process_env env "AIBADGR_API_KEY"]> ∅))).

End Example.

(** ** Further vocabulary *)

(** The endpoint of the service. *)
Definition endpoint : string := "https://aibadgr.com/api/v1".

(** The twelve fields of a profile of the table. *)
Definition profile_fields : list string :=
  "maxInputTokens" :: "maxOutputTokens" :: "toolCalling" :: other_flags.

(** The output limits of the three tiers. *)
Definition tier_output_limits : list Z := [4096; 8192; 16384]%Z.

(** * Properties *)

(** ** The profile table *)

Section profile_table.
Import Profiles.

(** The table read at an arbitrary key, one comparison per entry. *)
Lemma PROFILES_lookup (name : string) :
  PROFILES !! name =
    if decide (name = "llama3-8b-instruct") then Some (createProfile 32768 16384)
    else if decide (name = "mistral-7b") then Some (createProfile 16384 8192)
    else if decide (name = "phi-3-mini") then Some (createProfile 8192 4096)
    else if decide (name = "premium") then Some (createProfile 32768 16384)
    else if decide (name = "normal") then Some (createProfile 16384 8192)
    else if decide (name = "basic") then Some (createProfile 8192 4096)
    else None.
Proof.
  unfold PROFILES.
  repeat (rewrite lookup_insert; case_decide; subst;
          [ repeat (case_decide; try congruence) | ]).
  rewrite lookup_empty. repeat (case_decide; try congruence).
Qed.

(** Every entry of the table is [createProfile] at some pair of limits. *)
Lemma PROFILES_createProfile (name : string) (p : obj) :
  PROFILES !! name = Some p →
  ∃ i o, p = createProfile i o.
Proof.
  rewrite PROFILES_lookup.
  repeat case_decide; intros [= <-]; eauto.
Qed.

(** A key of [createProfile] other than the two limits is read from
    [BASE_PROFILE]. *)
Lemma createProfile_frame (i o : Z) (k : string) :
  k ≠ "maxInputTokens" → k ≠ "maxOutputTokens" →
  createProfile i o !! k = BASE_PROFILE !! k.
Proof.
  intros Hi Ho. unfold createProfile.
  rewrite lookup_insert_ne by congruence.
  rewrite lookup_insert_ne by congruence. reflexivity.
Qed.

Lemma createProfile_limits (i o : Z) :
  createProfile i o !! "maxInputTokens" = Some (VInt i) ∧
  createProfile i o !! "maxOutputTokens" = Some (VInt o).
Proof.
  unfold createProfile. split.
  - rewrite lookup_insert_ne by discriminate. apply lookup_insert_eq.
  - apply lookup_insert_eq.
Qed.

(** C5. The table maps "basic" and "phi-3-mini" to limits 8192/4096,
    "normal" and "mistral-7b" to 16384/8192, "premium" and
    "llama3-8b-instruct" to 32768/16384, and each power-user name to a
    profile equal to the profile of its tier. *)
Theorem C5_tier_limits_and_aliases :
  has_limits "basic" 8192 4096 ∧ has_limits "phi-3-mini" 8192 4096 ∧
  has_limits "normal" 16384 8192 ∧ has_limits "mistral-7b" 16384 8192 ∧
  has_limits "premium" 32768 16384 ∧
  has_limits "llama3-8b-instruct" 32768 16384 ∧
  PROFILES !! "phi-3-mini" = PROFILES !! "basic" ∧
  PROFILES !! "mistral-7b" = PROFILES !! "normal" ∧
  PROFILES !! "llama3-8b-instruct" = PROFILES !! "premium".
Proof.
  unfold has_limits. rewrite !PROFILES_lookup.
  repeat apply conj; try reflexivity;
    (eexists; split; [reflexivity | apply createProfile_limits]).
Qed.

(** C6. A model name that is not one of the six keys matches no entry of
    the table, whatever known key it extends or abbreviates, and its
    lookup is the empty profile (a value, not an error). *)
Theorem C6_unknown_model_empty_profile (name : string) :
  name ∉ known_models →
  PROFILES !! name = None ∧ lookup name = ∅.
Proof.
  intros Hnot. assert (PROFILES !! name = None) as Hnone.
  { rewrite PROFILES_lookup.
    repeat (case_decide as Heq;
            [ exfalso; apply Hnot; rewrite Heq; unfold known_models;
              repeat constructor | clear Heq ]).
    reflexivity. }
  split; [exact Hnone |]. unfold lookup. rewrite Hnone. reflexivity.
Qed.

Lemma C6_unknown_model_witness :
  (PROFILES !! "totally-unknown-model" = None ∧
   lookup "totally-unknown-model" = ∅) ∧
  (PROFILES !! "basi" = None ∧ lookup "basi" = ∅) ∧
  (PROFILES !! "basic " = None ∧ lookup "basic " = ∅) ∧
  (PROFILES !! "Premium" = None ∧ lookup "Premium" = ∅).
Proof.
  repeat apply conj.
  1-2: apply (C6_unknown_model_empty_profile "totally-unknown-model").
  3-4: apply (C6_unknown_model_empty_profile "basi").
  5-6: apply (C6_unknown_model_empty_profile "basic ").
  7-8: apply (C6_unknown_model_empty_profile "Premium").
  all: unfold known_models; rewrite !elem_of_cons, elem_of_nil;
       intros H; decompose [or] H; discriminate || assumption.
Defined.

(** C10. Every profile of the table has [toolCalling] true and each other
    capability flag false; two profiles of the table agree on every
    field other than [maxInputTokens] and [maxOutputTokens]. *)
Theorem C10_uniform_capability_flags (name : string) (p : obj) :
  PROFILES !! name = Some p →
  p !! "toolCalling" = Some (VBool true) ∧
  (∀ flag, flag ∈ other_flags → p !! flag = Some (VBool false)) ∧
  (∀ name' p' k, PROFILES !! name' = Some p' →
     k ≠ "maxInputTokens" → k ≠ "maxOutputTokens" → p !! k = p' !! k).
Proof.
  intros Hp. destruct (PROFILES_createProfile _ _ Hp) as (i & o & ->).
  split; [| split].
  - rewrite createProfile_frame by discriminate. reflexivity.
  - intros flag Hin. unfold other_flags in Hin.
    repeat (apply elem_of_cons in Hin as [-> | Hin];
            [ rewrite createProfile_frame by discriminate; reflexivity | ]).
    by apply elem_of_nil in Hin.
  - intros name' p' k Hp' Hi Ho.
    destruct (PROFILES_createProfile _ _ Hp') as (i' & o' & ->).
    rewrite !createProfile_frame by assumption. reflexivity.
Qed.

Lemma C10_uniform_capability_flags_witness :
  let p := createProfile 16384 8192 in
  p !! "toolCalling" = Some (VBool true) ∧
  (∀ flag, flag ∈ other_flags → p !! flag = Some (VBool false)) ∧
  (∀ name' p' k, PROFILES !! name' = Some p' →
     k ≠ "maxInputTokens" → k ≠ "maxOutputTokens" → p !! k = p' !! k).
Proof.
  apply (C10_uniform_capability_flags "mistral-7b").
  rewrite PROFILES_lookup. reflexivity.
Defined.

End profile_table.


(** ** The constructor *)

Section resolution.
Import ChatAIBadgr.

Lemma js_or_truthy (a b : value) : truthy a = true → js_or a b = a.
Proof. unfold js_or. by intros ->. Qed.

Lemma js_or_falsy (a b : value) : truthy a = false → js_or a b = b.
Proof. unfold js_or. by intros ->. Qed.

(** On a field typed [string | undefined], ToBoolean is non-emptiness. *)
Lemma optional_string_cases (v : value) :
  optional_string v →
  (∃ s, v = VStr s ∧ s ≠ "" ∧ truthy v = true ∧ non_empty v = Some s) ∨
  (truthy v = false ∧ non_empty v = None).
Proof.
  intros [-> | [s ->]]; [right; done |]. simpl.
  destruct (String.eqb_spec s ""); [right | left]; eauto.
Qed.

Lemma env_value_optional_string (env : string → option string) (name : string) :
  optional_string (env_value env name).
Proof.
  unfold env_value, optional_string. destruct (env name); eauto.
Qed.

(** The chain of [||] computes the first non-empty source, and is falsy
    when there is none. *)
Lemma aibadgrApiKey_first_non_empty (env : string → option string)
    (fields : option obj) :
  optional_string (opt_get fields "apiKey") →
  optional_string (opt_get fields "aibadgrApiKey") →
  match first_non_empty (key_sources env fields) with
  | Some key => aibadgrApiKey env fields = VStr key ∧ key ≠ ""
  | None => truthy (aibadgrApiKey env fields) = false
  end.
Proof.
  intros H1 H2.
  pose proof (env_value_optional_string env "AIBADGR_API_KEY") as H3.
  unfold aibadgrApiKey, key_sources. simpl first_non_empty.
  destruct (optional_string_cases _ H1) as [(s & E & Hs & T1 & ->) | [T1 ->]].
  { rewrite (js_or_truthy _ _ T1), (js_or_truthy _ _ T1). by rewrite E. }
  rewrite (js_or_falsy _ _ T1).
  destruct (optional_string_cases _ H2) as [(s & E & Hs & T2 & ->) | [T2 ->]].
  { rewrite (js_or_truthy _ _ T2). by rewrite E. }
  rewrite (js_or_falsy _ _ T2).
  destruct (optional_string_cases _ H3) as [(s & E & Hs & T3 & ->) | [T3 ->]];
    [by rewrite E | exact T3].
Qed.

(** C2. With the key fields typed as optional strings, the constructor
    resolves the key to the first non-empty value among [apiKey],
    [aibadgrApiKey] and the environment variable AIBADGR_API_KEY, in that
    order, and whenever there is one it succeeds and hands that value to
    the base class as [apiKey]. *)
Theorem C2_api_key_priority (env : string → option string)
    (fields : option obj) (key : string) :
  optional_string (opt_get fields "apiKey") →
  optional_string (opt_get fields "aibadgrApiKey") →
  first_non_empty (key_sources env fields) = Some key →
  aibadgrApiKey env fields = VStr key ∧
  ∃ args, constructor env fields = inr args ∧
          args !! "apiKey" = Some (VStr key).
Proof.
  intros H1 H2 Hkey.
  pose proof (aibadgrApiKey_first_non_empty env fields H1 H2) as Hres.
  rewrite Hkey in Hres. destruct Hres as [Hres Hne].
  split; [exact Hres |].
  unfold constructor. rewrite Hres. simpl truthy.
  destruct (String.eqb_spec key ""); [contradiction |]. simpl.
  eexists. split; [reflexivity |].
  rewrite lookup_insert_ne by discriminate. apply lookup_insert_eq.
Qed.

(** C3. With the key fields typed as optional strings, the constructor
    throws exactly when none of the three sources has a non-empty value;
    the message it throws is always the same one, and it contains both
    AIBADGR_API_KEY and the field name aibadgrApiKey. No other method of
    the class has an error of its own: the outcome of
    [completionWithRetry] is the outcome of the wrapped client's call. *)
Theorem C3_configuration_error (env : string → option string)
    (fields : option obj) :
  optional_string (opt_get fields "apiKey") →
  optional_string (opt_get fields "aibadgrApiKey") →
  ((∃ msg, constructor env fields = inl msg) ↔
   first_non_empty (key_sources env fields) = None) ∧
  (∀ msg, constructor env fields = inl msg → msg = key_not_found) ∧
  contains "AIBADGR_API_KEY" key_not_found = true ∧
  contains "aibadgrApiKey" key_not_found = true ∧
  (∀ Outcome super request options σ,
     (completionWithRetry Outcome super request options σ).1 =
     (super request options (delete_unsupported request σ)).1).
Proof.
  intros H1 H2.
  pose proof (aibadgrApiKey_first_non_empty env fields H1 H2) as Hres.
  split; [| split; [| split; [| split]]].
  - unfold constructor.
    destruct (first_non_empty (key_sources env fields)) as [key |].
    + destruct Hres as [-> Hne]. simpl truthy.
      destruct (String.eqb_spec key ""); [contradiction |]. simpl.
      split; [intros [msg [=]] | intros [=]].
    + rewrite Hres. simpl. split; eauto.
  - unfold constructor. intros msg.
    destruct (negb (truthy (aibadgrApiKey env fields))); by intros [=].
  - vm_compute. reflexivity.
  - vm_compute. reflexivity.
  - reflexivity.
Qed.

(** C8. Whatever the caller passes, a constructor that succeeds hands
    the base class a [configuration] block that consists of the fixed
    [baseURL] alone; a [configuration] among the caller's fields is
    overwritten. *)
Theorem C8_fixed_base_url (env : string → option string)
    (fields : option obj) (args : obj) :
  constructor env fields = inr args →
  args !! "configuration" =
    Some (VObj {["baseURL" := VStr "https://aibadgr.com/api/v1"]}).
Proof.
  unfold constructor.
  destruct (negb (truthy (aibadgrApiKey env fields))); intros [= <-].
  rewrite lookup_insert_eq. reflexivity.
Qed.

(** Fields other than [model], [apiKey] and [configuration] reach the
    base class as the caller gave them. *)
Lemma constructor_frame (env : string → option string)
    (fields : option obj) (args : obj) (k : string) :
  constructor env fields = inr args →
  k ≠ "model" → k ≠ "apiKey" → k ≠ "configuration" →
  args !! k = spread fields !! k.
Proof.
  unfold constructor.
  destruct (negb (truthy (aibadgrApiKey env fields))); intros [= <-] ? ? ?.
  by rewrite !lookup_insert_ne.
Qed.

(** C4. Constructed with an API key and no model, the adapter hands the
    base class the model name "gpt-4", not "premium"; constructed with
    [model: "basic"] it hands over "basic". *)
Theorem C4_default_model_is_gpt4 (env : string → option string) :
  (∃ args,
     constructor env (Some {["apiKey" := VStr "test-api-key"]}) = inr args ∧
     args !! "model" = Some (VStr "gpt-4") ∧
     args !! "model" ≠ Some (VStr "premium")) ∧
  (∃ args,
     constructor env
       (Some (<["model" := VStr "basic"]>
                {["apiKey" := VStr "test-api-key"]})) = inr args ∧
     args !! "model" = Some (VStr "basic")).
Proof.
  split; eexists; (split; [reflexivity |]).
  - rewrite !lookup_insert_ne by discriminate. rewrite lookup_insert_eq.
    split; [reflexivity | discriminate].
  - rewrite !lookup_insert_ne by discriminate. rewrite lookup_insert_eq.
    reflexivity.
Qed.

End resolution.

Lemma C2_api_key_priority_witness :
  let env name := if String.eqb name "AIBADGR_API_KEY"
                  then Some "env-key" else None in
  let fields := Some (<["apiKey" := VStr ""]>
                        {["aibadgrApiKey" := VStr "alias-key"]}) in
  ChatAIBadgr.aibadgrApiKey env fields = VStr "alias-key" ∧
  ∃ args, ChatAIBadgr.constructor env fields = inr args ∧
          args !! "apiKey" = Some (VStr "alias-key").
Proof.
  intros env fields.
  apply (C2_api_key_priority env fields "alias-key").
  - right. exists "". reflexivity.
  - right. exists "alias-key". reflexivity.
  - reflexivity.
Defined.

Lemma C3_configuration_error_witness :
  let env (name : string) : option string := None in
  let fields := Some ({["model" := VStr "premium"]} : obj) in
  ChatAIBadgr.constructor env fields = inl ChatAIBadgr.key_not_found.
Proof.
  intros env fields.
  destruct (C3_configuration_error env fields) as ([_ Hthrows] & Hmsg & _).
  - left. reflexivity.
  - left. reflexivity.
  - destruct (Hthrows eq_refl) as [msg Hctor].
    rewrite Hctor. f_equal. exact (Hmsg msg Hctor).
Defined.

Lemma C8_fixed_base_url_witness :
  let env (name : string) : option string := None in
  let fields :=
    Some (<["configuration" :=
              VObj {["baseURL" := VStr "https://example.com/v1"]}]>
            {["apiKey" := VStr "k"]}) in
  ∃ args, ChatAIBadgr.constructor env fields = inr args ∧
    args !! "configuration" =
      Some (VObj {["baseURL" := VStr "https://aibadgr.com/api/v1"]}).
Proof.
  intros env fields. eexists. split; [reflexivity |].
  apply (C8_fixed_base_url env fields). reflexivity.
Defined.

(** ** Requests *)

Section requests.
Import ChatAIBadgr.

Lemma delete_property_lookup (request : loc) (k : string)
    (σ : gmap loc obj) (l : loc) :
  delete_property request k σ !! l =
    if decide (l = request) then delete k <$> σ !! l else σ !! l.
Proof.
  unfold delete_property. case_decide as Heq.
  - subst l. apply lookup_alter_eq.
  - apply lookup_alter_ne. congruence.
Qed.

(** The four deletions act on the object [request] refers to, and on no
    other. *)
Lemma delete_unsupported_lookup (request : loc) (σ : gmap loc obj) (l : loc) :
  delete_unsupported request σ !! l =
    if decide (l = request) then without_unsupported <$> σ !! l else σ !! l.
Proof.
  unfold delete_unsupported. rewrite !delete_property_lookup.
  case_decide; [| reflexivity].
  destruct (σ !! l); reflexivity.
Qed.

Lemma delete_unsupported_insert (request : loc) (σ : gmap loc obj) (req : obj) :
  σ !! request = Some req →
  delete_unsupported request σ = <[request := without_unsupported req]> σ.
Proof.
  intros Hreq. apply map_eq. intros l.
  rewrite delete_unsupported_lookup, lookup_insert.
  destruct (decide (l = request)) as [-> | Hne].
  - rewrite decide_True by reflexivity. by rewrite Hreq.
  - rewrite decide_False by congruence. reflexivity.
Qed.

Lemma without_unsupported_absent (req : obj) (k : string) :
  k ∈ unsupported → without_unsupported req !! k = None.
Proof.
  unfold unsupported, without_unsupported. intros Hin.
  repeat (apply elem_of_cons in Hin as [-> | Hin];
          [ repeat (rewrite lookup_delete_ne by discriminate);
            apply lookup_delete_eq | ]).
  by apply elem_of_nil in Hin.
Qed.

Lemma without_unsupported_frame (req : obj) (k : string) :
  k ∉ unsupported → without_unsupported req !! k = req !! k.
Proof.
  unfold unsupported, without_unsupported. intros Hnot.
  rewrite !lookup_delete_ne; [reflexivity | ..];
    intros <-; apply Hnot; repeat constructor.
Qed.

(** C1. The wrapped client's [completionWithRetry] is called on the
    caller's request reference, which by then denotes a payload without
    [frequency_penalty], [presence_penalty], [logit_bias] and
    [functions], and with every other field as in the original request. *)
Theorem C1_payload_sanitized (Outcome : Type)
    (super : loc → value → gmap loc obj → Outcome * gmap loc obj)
    (request : loc) (options : value) (σ : gmap loc obj) (req : obj) :
  σ !! request = Some req →
  ∃ payload,
    completionWithRetry Outcome super request options σ =
      super request options (<[request := payload]> σ) ∧
    (∀ k, k ∈ unsupported → payload !! k = None) ∧
    (∀ k, k ∉ unsupported → payload !! k = req !! k).
Proof.
  intros Hreq. exists (without_unsupported req). split; [| split].
  - unfold completionWithRetry.
    by rewrite (delete_unsupported_insert _ _ _ Hreq).
  - apply without_unsupported_absent.
  - apply without_unsupported_frame.
Qed.

(** C9, as amended. Sanitization works in place on the object the caller
    passed: afterwards that object has lost the four unsupported fields
    and kept every other field, every other object is untouched, and the
    caller's object is unchanged exactly when it carried none of the
    four fields. *)
Theorem C9_sanitization_in_place (request : loc) (σ : gmap loc obj)
    (req : obj) :
  σ !! request = Some req →
  delete_unsupported request σ !! request = Some (without_unsupported req) ∧
  (∀ k, k ∈ unsupported → without_unsupported req !! k = None) ∧
  (∀ k, k ∉ unsupported → without_unsupported req !! k = req !! k) ∧
  (∀ l, l ≠ request → delete_unsupported request σ !! l = σ !! l) ∧
  (delete_unsupported request σ !! request = σ !! request ↔
   ∀ k, k ∈ unsupported → req !! k = None).
Proof.
  intros Hreq.
  assert (delete_unsupported request σ !! request
          = Some (without_unsupported req)) as Hafter.
  { rewrite delete_unsupported_lookup, decide_True by reflexivity.
    by rewrite Hreq. }
  split; [exact Hafter |].
  split; [apply without_unsupported_absent |].
  split; [apply without_unsupported_frame |].
  split.
  - intros l Hne. rewrite delete_unsupported_lookup.
    by rewrite decide_False.
  - rewrite Hafter, Hreq. split.
    + intros [= Heq] k Hin. rewrite <- Heq.
      by apply without_unsupported_absent.
    + intros Hnone. f_equal. apply map_eq. intros k.
      destruct (decide (k ∈ unsupported)) as [Hin | Hnot].
      * rewrite (Hnone k Hin). by apply without_unsupported_absent.
      * by apply without_unsupported_frame.
Qed.

End requests.

Lemma C1_payload_sanitized_witness :
  ∃ payload,
    ChatAIBadgr.completionWithRetry value inert_client 1%positive VUndefined
      {[1%positive := sample_request]} =
      inert_client 1%positive VUndefined
        (<[1%positive := payload]> {[1%positive := sample_request]}) ∧
    (∀ k, k ∈ unsupported → payload !! k = None) ∧
    (∀ k, k ∉ unsupported → payload !! k = sample_request !! k).
Proof.
  apply (C1_payload_sanitized value inert_client 1%positive VUndefined
           {[1%positive := sample_request]} sample_request).
  reflexivity.
Defined.

(** C9, as stated, fails: after the call the caller's own request object
    no longer carries the fields it was built with. *)
Lemma C9_request_mutated_counterexample :
  let σ : gmap loc obj := {[1%positive := sample_request]} in
  let σ' :=
    (ChatAIBadgr.completionWithRetry value inert_client 1%positive
       VUndefined σ).2 in
  σ !! 1%positive ≫= (.!! "frequency_penalty") = Some (VNum (1 # 2)) ∧
  σ' !! 1%positive ≫= (.!! "frequency_penalty") = None ∧
  σ' !! 1%positive ≠ σ !! 1%positive.
Proof.
  intros σ σ'. split; [reflexivity |]. split; [reflexivity |].
  intros Heq.
  apply (f_equal (λ o : option obj, o ≫= (.!! "frequency_penalty"))) in Heq.
  discriminate Heq.
Qed.

Lemma C9_sanitization_in_place_witness :
  let σ : gmap loc obj := {[1%positive := sample_request]} in
  ChatAIBadgr.delete_unsupported 1%positive σ !! 1%positive
    = Some (without_unsupported sample_request) ∧
  (∀ k, k ∈ unsupported → without_unsupported sample_request !! k = None) ∧
  (∀ k, k ∉ unsupported →
     without_unsupported sample_request !! k = sample_request !! k) ∧
  (∀ l, l ≠ 1%positive →
     ChatAIBadgr.delete_unsupported 1%positive σ !! l = σ !! l) ∧
  (ChatAIBadgr.delete_unsupported 1%positive σ !! 1%positive = σ !! 1%positive ↔
   ∀ k, k ∈ unsupported → sample_request !! k = None).
Proof.
  intros σ. apply (C9_sanitization_in_place 1%positive σ sample_request).
  reflexivity.
Defined.

(** ** Serialization *)

Section serialization.
Import ChatAIBadgr.

(** C7. Whatever the base class serializes, the record [toJSON] returns
    has no [openai_api_key] and no [configuration] property in its
    [kwargs] block; every other property of the block and every other
    property of the record is as the base class produced it. *)
Theorem C7_serialized_omits_key_and_endpoint (Client : Type)
    (super_toJSON : Client → obj) (this : Client) :
  kwargs_get (toJSON Client super_toJSON this) "openai_api_key" = None ∧
  kwargs_get (toJSON Client super_toJSON this) "configuration" = None ∧
  (∀ k, k ≠ "openai_api_key" → k ≠ "configuration" →
     kwargs_get (toJSON Client super_toJSON this) k =
     kwargs_get (super_toJSON this) k) ∧
  (∀ k, k ≠ "kwargs" →
     toJSON Client super_toJSON this !! k = super_toJSON this !! k).
Proof.
  unfold toJSON, kwargs_get.
  destruct (super_toJSON this !! "kwargs") as [kwargs |] eqn:Hk; simpl.
  - destruct kwargs; simpl; rewrite ?Hk, ?lookup_insert_eq;
      try (repeat split; intros; by rewrite ?lookup_insert_ne).
    repeat split.
    + rewrite lookup_delete_ne by discriminate. apply lookup_delete_eq.
    + apply lookup_delete_eq.
    + intros k H1 H2. by rewrite !lookup_delete_ne.
    + intros k H1. by rewrite lookup_insert_ne.
  - rewrite Hk. repeat split.
Qed.

(** On the sample record the two properties go and [model] stays. *)
Example toJSON_sample :
  toJSON unit (λ _, sample_serialized) () !! "kwargs" =
    Some (VObj {["model" := VStr "premium"]}).
Proof. vm_compute. reflexivity. Qed.

End serialization.

(** * Further properties *)

(** ** The profile table, as a whole *)

Section profile_table_more.
Import Profiles.

(** X1. The table has an entry for a name exactly when the name is one of
    the six known model names. *)
Theorem PROFILES_domain (name : string) :
  is_Some (PROFILES !! name) ↔ name ∈ known_models.
Proof.
  rewrite PROFILES_lookup. unfold known_models. split.
  - repeat (case_decide as Heq;
            [intros _; rewrite Heq; repeat constructor | clear Heq]).
    intros [? [=]].
  - intros Hin.
    repeat (apply elem_of_cons in Hin as [-> | Hin]; [by eexists |]).
    by apply elem_of_nil in Hin.
Qed.

(** X2. In every entry of the table the output limit is one of 4096, 8192
    and 16384, and the input limit is twice the output limit. *)
Theorem PROFILES_input_twice_output (name : string) (p : obj) :
  PROFILES !! name = Some p →
  ∃ o : Z, o ∈ tier_output_limits ∧
    p !! "maxOutputTokens" = Some (VInt o) ∧
    p !! "maxInputTokens" = Some (VInt (2 * o)).
Proof.
  rewrite PROFILES_lookup. unfold tier_output_limits.
  repeat case_decide; intros [= <-];
    [ exists 16384%Z | exists 8192%Z | exists 4096%Z
    | exists 16384%Z | exists 8192%Z | exists 4096%Z ];
    (split; [repeat constructor |]);
    destruct (createProfile_limits (2 * 16384) 16384) as [? ?];
    destruct (createProfile_limits (2 * 8192) 8192) as [? ?];
    destruct (createProfile_limits (2 * 4096) 4096) as [? ?];
    split; assumption.
Qed.

(** X3. Every entry of the table sets exactly the twelve profile fields:
    both limits and all ten capability flags, and nothing else. *)
Theorem PROFILES_fully_populated (name : string) (p : obj) (k : string) :
  PROFILES !! name = Some p →
  is_Some (p !! k) ↔ k ∈ profile_fields.
Proof.
  intros Hp. destruct (PROFILES_createProfile _ _ Hp) as (i & o & ->).
  unfold profile_fields, other_flags, createProfile, BASE_PROFILE. split.
  - repeat (rewrite lookup_insert; case_decide as Heq;
            [intros _; rewrite <- Heq; repeat constructor | clear Heq]).
    rewrite lookup_empty. intros [? [=]].
  - intros Hin.
    repeat (apply elem_of_cons in Hin as [-> | Hin];
            [ rewrite ?lookup_insert_ne by discriminate;
              rewrite lookup_insert_eq; by eexists |]).
    by apply elem_of_nil in Hin.
Qed.

End profile_table_more.

Lemma PROFILES_input_twice_output_witness :
  ∃ o : Z, o ∈ tier_output_limits ∧
    Profiles.createProfile 32768 16384 !! "maxOutputTokens" = Some (VInt o) ∧
    Profiles.createProfile 32768 16384 !! "maxInputTokens"
      = Some (VInt (2 * o)).
Proof.
  apply (PROFILES_input_twice_output "premium").
  rewrite PROFILES_lookup. reflexivity.
Defined.

Lemma PROFILES_fully_populated_witness :
  is_Some (Profiles.createProfile 8192 4096 !! "pdfInputs")
  ↔ "pdfInputs" ∈ profile_fields.
Proof.
  apply (PROFILES_fully_populated "phi-3-mini").
  rewrite PROFILES_lookup. reflexivity.
Defined.

(** ** The constructor, beyond the key *)

Section constructor_more.
Import ChatAIBadgr.

(** The constructor throws exactly when the resolved key is falsy. *)
Lemma constructor_cases (env : string → option string) (fields : option obj) :
  (truthy (aibadgrApiKey env fields) = false ∧
   constructor env fields = inl key_not_found) ∨
  (truthy (aibadgrApiKey env fields) = true ∧
   constructor env fields = inr
     (<["configuration" := VObj {["baseURL" := VStr endpoint]}]>
     (<["apiKey" := aibadgrApiKey env fields]>
     (<["model" := js_or (opt_get fields "model") (VStr "gpt-4")]>
     (spread fields))))).
Proof.
  unfold constructor.
  destruct (truthy (aibadgrApiKey env fields)); [right | left]; done.
Qed.

(** X4. The object handed to the base class has the caller's properties plus
    [model], [apiKey] and [configuration], and every property other than
    these three carries the caller's value: in particular a legacy
    [aibadgrApiKey] travels on unchanged. *)
Theorem constructor_forwards_other_fields (env : string → option string)
    (fields : option obj) (args : obj) :
  constructor env fields = inr args →
  dom args = {["model"; "apiKey"; "configuration"]} ∪ dom (spread fields) ∧
  (∀ k, k ∉ ["model"; "apiKey"; "configuration"] →
     args !! k = spread fields !! k).
Proof.
  intros Hctor. split.
  - destruct (constructor_cases env fields) as [[_ E] | [_ E]];
      rewrite E in Hctor; [discriminate |]. injection Hctor as <-.
    rewrite !dom_insert_L. apply set_eq. intros k.
    rewrite !elem_of_union, !elem_of_singleton. tauto.
  - intros k Hk. apply (constructor_frame env fields args k Hctor);
      intros ->; apply Hk; repeat constructor.
Qed.

(** X5. A [model] field typed as an optional string reaches the base class
    when it is a non-empty string; absent, [undefined] or empty, it is
    replaced by "gpt-4". *)
Theorem constructor_model_or_default (env : string → option string)
    (fields : option obj) (args : obj) :
  optional_string (opt_get fields "model") →
  constructor env fields = inr args →
  args !! "model" =
    Some (VStr (default "gpt-4" (non_empty (opt_get fields "model")))).
Proof.
  intros Hm Hctor.
  destruct (constructor_cases env fields) as [[_ E] | [_ E]];
    rewrite E in Hctor; [discriminate |]. injection Hctor as <-.
  rewrite !lookup_insert_ne by discriminate. rewrite lookup_insert_eq.
  f_equal.
  destruct (optional_string_cases _ Hm) as [(s & Es & _ & T & ->) | [T ->]].
  - rewrite (js_or_truthy _ _ T). exact Es.
  - by rewrite (js_or_falsy _ _ T).
Qed.

(** X6. With the key fields typed as optional strings, a constructor that
    succeeds never hands the base class an empty key: [apiKey] is a
    non-empty string, and it is the value of one of the three sources. *)
Theorem constructor_key_never_empty (env : string → option string)
    (fields : option obj) (args : obj) :
  optional_string (opt_get fields "apiKey") →
  optional_string (opt_get fields "aibadgrApiKey") →
  constructor env fields = inr args →
  ∃ key, args !! "apiKey" = Some (VStr key) ∧ key ≠ "" ∧
         VStr key ∈ key_sources env fields.
Proof.
  intros H1 H2 Hctor.
  pose proof (aibadgrApiKey_first_non_empty env fields H1 H2) as Hres.
  destruct (constructor_cases env fields) as [[T E] | [T E]];
    rewrite E in Hctor; [discriminate |]. injection Hctor as <-.
  destruct (first_non_empty (key_sources env fields)) as [key |] eqn:Hfirst;
    [| congruence].
  destruct Hres as [Hkey Hne]. exists key.
  split; [| split; [exact Hne |]].
  - rewrite lookup_insert_ne by discriminate.
    rewrite lookup_insert_eq. by rewrite Hkey.
  - clear -Hfirst. induction (key_sources env fields) as [| v rest IH];
      [discriminate |].
    simpl in Hfirst. destruct (non_empty v) as [s |] eqn:Hv.
    + injection Hfirst as ->. destruct v as [| | | | s' | |]; try discriminate.
      simpl in Hv. destruct (String.eqb s' ""); [discriminate |].
      injection Hv as ->. constructor.
    + constructor. by apply IH.
Qed.

(** X7. When one of the two key fields is truthy the environment is never
    consulted: the constructor behaves the same in every environment. *)
Theorem constructor_ignores_env_given_field (env env' : string → option string)
    (fields : option obj) :
  truthy (opt_get fields "apiKey") = true ∨
  truthy (opt_get fields "aibadgrApiKey") = true →
  constructor env fields = constructor env' fields.
Proof.
  intros Hfield.
  assert (∀ e, aibadgrApiKey e fields =
               js_or (opt_get fields "apiKey") (opt_get fields "aibadgrApiKey")
               ∧ truthy (aibadgrApiKey e fields) = true) as Hkey.
  { intros e. unfold aibadgrApiKey.
    assert (truthy (js_or (opt_get fields "apiKey")
                          (opt_get fields "aibadgrApiKey")) = true) as T.
    { unfold js_or.
      destruct (truthy (opt_get fields "apiKey")) eqn:T1; [exact T1 |].
      destruct Hfield as [? | T2]; [discriminate | exact T2]. }
    rewrite (js_or_truthy _ _ T). by split. }
  unfold constructor.
  destruct (Hkey env) as [-> ->]. destruct (Hkey env') as [-> ->].
  reflexivity.
Qed.

(** X8. Called with no argument at all, the constructor depends on the
    environment alone: it throws unless AIBADGR_API_KEY is set to a
    non-empty string, and otherwise hands the base class exactly the
    model "gpt-4", that key and the fixed endpoint. *)
Theorem constructor_without_fields (env : string → option string) :
  constructor env None =
    match env "AIBADGR_API_KEY" with
    | Some key =>
        if String.eqb key "" then inl key_not_found
        else inr (<["configuration" := VObj {["baseURL" := VStr endpoint]}]>
                 (<["apiKey" := VStr key]>
                 {["model" := VStr "gpt-4"]}))
    | None => inl key_not_found
    end.
Proof.
  unfold constructor, aibadgrApiKey, env_value, js_or. simpl.
  destruct (env "AIBADGR_API_KEY") as [key |]; simpl; [| reflexivity].
  destruct (String.eqb key ""); reflexivity.
Qed.

End constructor_more.

Lemma constructor_forwards_other_fields_witness :
  let env (name : string) : option string := None in
  let fields := Some (<["temperature" := VNum (9 # 10)]>
                        {["aibadgrApiKey" := VStr "legacy-key"]}) in
  ∃ args, ChatAIBadgr.constructor env fields = inr args ∧
    dom args = {["model"; "apiKey"; "configuration"]} ∪ dom (spread fields) ∧
    (∀ k, k ∉ ["model"; "apiKey"; "configuration"] →
       args !! k = spread fields !! k).
Proof.
  intros env fields. eexists. split; [reflexivity |].
  apply (constructor_forwards_other_fields env fields). reflexivity.
Defined.

Lemma constructor_model_or_default_witness :
  let env (name : string) : option string := None in
  let fields := Some (<["model" := VStr ""]> {["apiKey" := VStr "k"]}) in
  ∃ args, ChatAIBadgr.constructor env fields = inr args ∧
    args !! "model" = Some (VStr "gpt-4").
Proof.
  intros env fields. eexists. split; [reflexivity |].
  apply (constructor_model_or_default env fields).
  - right. exists "". reflexivity.
  - reflexivity.
Defined.

Lemma constructor_key_never_empty_witness :
  let env name := if String.eqb name "AIBADGR_API_KEY"
                  then Some "env-key" else None in
  let fields := Some ({["apiKey" := VStr ""]} : obj) in
  ∃ key, (<["configuration" := VObj {["baseURL" := VStr endpoint]}]>
          (<["apiKey" := VStr "env-key"]>
          (<["model" := VStr "gpt-4"]> {["apiKey" := VStr ""]})) : obj)
           !! "apiKey" = Some (VStr key) ∧ key ≠ "" ∧
         VStr key ∈ key_sources env fields.
Proof.
  intros env fields.
  apply (constructor_key_never_empty env fields).
  - right. exists "". reflexivity.
  - left. reflexivity.
  - reflexivity.
Defined.

Lemma constructor_ignores_env_given_field_witness :
  let fields := Some ({["aibadgrApiKey" := VStr "legacy-key"]} : obj) in
  ChatAIBadgr.constructor (λ _, None) fields =
  ChatAIBadgr.constructor (λ _, Some "env-key") fields.
Proof.
  intros fields.
  apply (constructor_ignores_env_given_field _ _ fields).
  right. reflexivity.
Defined.

(** ** Tracing parameters and serialization *)

Section methods_more.
Import ChatAIBadgr.

(** X9. Whatever provider the base class reports, the adapter reports
    "aibadgr"; it adds no other parameter and changes none. *)
Theorem getLsParams_provider (Client : Type)
    (super_getLsParams : Client → value → obj)
    (this : Client) (options : value) :
  let params := getLsParams Client super_getLsParams this options in
  params !! "ls_provider" = Some (VStr "aibadgr") ∧
  dom params = {["ls_provider"]} ∪ dom (super_getLsParams this options) ∧
  (∀ k, k ≠ "ls_provider" →
     params !! k = super_getLsParams this options !! k).
Proof.
  unfold getLsParams. simpl. split; [apply lookup_insert_eq |]. split.
  - apply dom_insert_L.
  - intros k Hk. by apply lookup_insert_ne.
Qed.

(** [toJSON] by cases on the [kwargs] of the base-class record: a block
    loses the two properties, anything else leaves the record alone. *)
Lemma toJSON_cases (Client : Type) (super_toJSON : Client → obj)
    (this : Client) :
  toJSON Client super_toJSON this =
    match super_toJSON this !! "kwargs" with
    | Some (VObj kwargs) =>
        <["kwargs" :=
            VObj (delete "configuration" (delete "openai_api_key" kwargs))]>
          (super_toJSON this)
    | _ => super_toJSON this
    end.
Proof.
  unfold toJSON.
  destruct (super_toJSON this !! "kwargs") as [kwargs |] eqn:Hk; simpl;
    [| reflexivity].
  destruct kwargs; simpl; try reflexivity.
  by apply insert_id.
Qed.

(** X10. Serializing is stable: stripping a record that [toJSON] already
    produced changes nothing. *)
Theorem toJSON_idempotent (Client : Type) (super_toJSON : Client → obj)
    (this : Client) :
  toJSON Client (toJSON Client super_toJSON) this =
  toJSON Client super_toJSON this.
Proof.
  rewrite (toJSON_cases Client (toJSON Client super_toJSON)).
  rewrite (toJSON_cases Client super_toJSON).
  destruct (super_toJSON this !! "kwargs") as [kwargs |] eqn:Hk;
    [| by rewrite Hk].
  destruct kwargs; try (by rewrite Hk).
  rewrite lookup_insert_eq, insert_insert_eq.
  rewrite (delete_id (delete "configuration" _) "openai_api_key").
  - by rewrite delete_delete_eq.
  - rewrite lookup_delete_ne by discriminate. apply lookup_delete_eq.
Qed.

(** X11. [toJSON] returns the base-class record as it is exactly when that
    record has neither property in a [kwargs] block; in particular a
    record without [kwargs], or whose [kwargs] is [null] or not an
    object, is returned untouched. *)
Theorem toJSON_unchanged_iff (Client : Type) (super_toJSON : Client → obj)
    (this : Client) :
  toJSON Client super_toJSON this = super_toJSON this ↔
  kwargs_get (super_toJSON this) "openai_api_key" = None ∧
  kwargs_get (super_toJSON this) "configuration" = None.
Proof.
  rewrite toJSON_cases. unfold kwargs_get.
  destruct (super_toJSON this !! "kwargs") as [kwargs |] eqn:Hk;
    [| by split].
  destruct kwargs as [| | | | | | m]; try by split.
  split.
  - intros Heq. apply (f_equal (.!! "kwargs")) in Heq.
    rewrite lookup_insert_eq, Hk in Heq. injection Heq as Heq.
    split; rewrite <- Heq.
    + rewrite lookup_delete_ne by discriminate. apply lookup_delete_eq.
    + apply lookup_delete_eq.
  - intros [Hkey Hconf]. apply insert_id. rewrite Hk. do 2 f_equal.
    rewrite (delete_id _ _ Hkey). symmetry. by apply delete_id.
Qed.

End methods_more.

(** ** Requests, once more *)

Section requests_more.
Import ChatAIBadgr.

(** X12. Sanitizing creates and destroys no object, and the caller's object
    keeps exactly the properties it had apart from the four unsupported
    ones. *)
Theorem delete_unsupported_domains (request : loc) (σ : gmap loc obj)
    (req : obj) :
  σ !! request = Some req →
  dom (delete_unsupported request σ) = dom σ ∧
  ∃ payload, delete_unsupported request σ !! request = Some payload ∧
             dom payload = dom req ∖ list_to_set unsupported.
Proof.
  intros Hreq. rewrite (delete_unsupported_insert _ _ _ Hreq). split.
  - rewrite dom_insert_L. apply set_eq. intros l.
    rewrite elem_of_union, elem_of_singleton, elem_of_dom.
    split; [intros [-> | ?]; by eauto | by right].
  - exists (without_unsupported req). split; [apply lookup_insert_eq |].
    unfold without_unsupported, unsupported. rewrite !dom_delete_L.
    apply set_eq. intros k. simpl.
    rewrite !elem_of_difference, !elem_of_union, !elem_of_singleton,
      elem_of_empty.
    tauto.
Qed.

(** X13. Sanitizing twice is sanitizing once: a request that went through
    [completionWithRetry] reaches the wrapped client unchanged when it
    is sent again. *)
Theorem delete_unsupported_idempotent (request : loc) (σ : gmap loc obj) :
  delete_unsupported request (delete_unsupported request σ) =
  delete_unsupported request σ.
Proof.
  apply map_eq. intros l. rewrite !delete_unsupported_lookup.
  case_decide; [| reflexivity].
  destruct (σ !! l) as [req |]; [| reflexivity]. simpl. f_equal.
  apply map_eq. intros k.
  destruct (decide (k ∈ unsupported)) as [Hin | Hnot].
  - by rewrite !without_unsupported_absent.
  - by rewrite !without_unsupported_frame.
Qed.

(** X14. A request that carries none of the four fields is handed to the
    wrapped client with the store exactly as the caller left it. *)
Theorem completionWithRetry_clean_request (Outcome : Type)
    (super : loc → value → gmap loc obj → Outcome * gmap loc obj)
    (request : loc) (options : value) (σ : gmap loc obj) (req : obj) :
  σ !! request = Some req →
  (∀ k, k ∈ unsupported → req !! k = None) →
  completionWithRetry Outcome super request options σ =
  super request options σ.
Proof.
  intros Hreq Hclean. unfold completionWithRetry. f_equal.
  rewrite (delete_unsupported_insert _ _ _ Hreq). apply insert_id.
  rewrite Hreq. f_equal. apply map_eq. intros k.
  destruct (decide (k ∈ unsupported)) as [Hin | Hnot].
  - rewrite (Hclean k Hin). symmetry. by apply without_unsupported_absent.
  - symmetry. by apply without_unsupported_frame.
Qed.

End requests_more.

Lemma delete_unsupported_domains_witness :
  let σ : gmap loc obj := {[1%positive := sample_request]} in
  dom (ChatAIBadgr.delete_unsupported 1%positive σ) = dom σ ∧
  ∃ payload,
    ChatAIBadgr.delete_unsupported 1%positive σ !! 1%positive = Some payload ∧
    dom payload = dom sample_request ∖ list_to_set unsupported.
Proof.
  intros σ. apply (delete_unsupported_domains 1%positive σ sample_request).
  reflexivity.
Defined.

Lemma completionWithRetry_clean_request_witness :
  let req : obj := <["messages" := VArr []]> {["model" := VStr "basic"]} in
  let σ : gmap loc obj := {[2%positive := req]} in
  ChatAIBadgr.completionWithRetry value inert_client 2%positive VNull σ =
  inert_client 2%positive VNull σ.
Proof.
  intros req σ.
  apply (completionWithRetry_clean_request value inert_client 2%positive
           VNull σ req).
  - reflexivity.
  - intros k Hin. unfold unsupported in Hin.
    repeat (apply elem_of_cons in Hin as [-> | Hin]; [reflexivity |]).
    by apply elem_of_nil in Hin.
Defined.

(** ** The example and the adapter *)

Section example_endpoint.
Import ChatAIBadgr Example.

(** X15. The example's base URL is AIBADGR_BASE_URL when that variable is set
    to a non-empty string and the fixed endpoint otherwise. The adapter
    built in the same environment never reads the variable, so the two
    agree on the [configuration] block exactly when the override is
    unset, empty or the fixed endpoint itself. *)
Theorem example_endpoint_override (env : string → option string)
    (fields : option obj) (args : obj) :
  constructor env fields = inr args →
  let url := match env "AIBADGR_BASE_URL" with
             | Some s => if String.eqb s "" then endpoint else s
             | None => endpoint
             end in
  run_options env !! "configuration" =
    Some (VObj {["baseURL" := VStr url]}) ∧
  (args !! "configuration" = run_options env !! "configuration"
   ↔ url = endpoint).
Proof.
  intros Hctor url.
  assert (run_options env !! "configuration" =
          Some (VObj {["baseURL" := VStr url]})) as Hrun.
  { unfold run_options. rewrite lookup_insert_eq. do 3 f_equal.
    unfold url, process_env, js_or.
    destruct (env "AIBADGR_BASE_URL") as [s |]; simpl; [| reflexivity].
    destruct (String.eqb s ""); reflexivity. }
  split; [exact Hrun |].
  rewrite Hrun. destruct (constructor_cases env fields) as [[_ E] | [_ E]];
    rewrite E in Hctor; [discriminate |]. injection Hctor as <-.
  rewrite lookup_insert_eq. split.
  - intros Heq.
    apply (f_equal (λ v, match v with
                         | Some (VObj m) => m !! "baseURL"
                         | _ => None
                         end)) in Heq.
    rewrite !lookup_singleton_eq in Heq. congruence.
  - by intros ->.
Qed.

End example_endpoint.

Lemma example_endpoint_override_witness :
  let env name := if String.eqb name "AIBADGR_BASE_URL"
                  then Some "https://proxy.example/v1" else None in
  let fields := Some ({["apiKey" := VStr "k"]} : obj) in
  ∃ args, ChatAIBadgr.constructor env fields = inr args ∧
    Example.run_options env !! "configuration" =
      Some (VObj {["baseURL" := VStr "https://proxy.example/v1"]}) ∧
    (args !! "configuration" = Example.run_options env !! "configuration"
     ↔ "https://proxy.example/v1" = endpoint).
Proof.
  intros env fields. eexists. split; [reflexivity |].
  apply (example_endpoint_override env fields). reflexivity.
Defined.
